(** * Covalent web UI: the circuit preview and the dashboard card

    A shallow embedding of the two React components of
    [covalent_ui/webapp/src/components/qelectron/Circuit.js]:
    [Circuit] (with its modal) and [DashboardCard] (with its two effects, its
    snackbar and its four [DashBoardCardItems]).

    JavaScript values are an inductive type, property reads and rendering
    return a [result] because they can throw, and a mounted component is a
    record of its hook cells driven by a list of events. *)

From Stdlib Require Import ZArith DecimalString DecimalPos DecimalZ.
From stdpp Require Import base option list strings gmap.

Open Scope string_scope.
Open Scope list_scope.

(** ** JavaScript values *)

Module JS.

(** Numbers.  The store carries job counts and whole seconds, so a number is
    an integer or [NaN], the one other number that is falsy; negative zero,
    which is falsy and [===] zero as well, is not told apart from zero.
    [Int z] stands for the JavaScript number of that value when
    [safe_integer z], the range in which a double holds every integer. *)
Inductive number :=
| NaN
| Int (z : Z).

(** A value.  An object carries its reference [ref], which is what
    [Object.is] and [===] compare, beside its own properties. *)
#[warnings="-register-all"] Inductive value :=
| VUndefined
| VNull
| VBool (b : bool)
| VNum (n : number)
| VStr (s : string)
| VObj (ref : positive) (props : gmap string value).

(** What is thrown: a [TypeError] by a property read, and the error of
    React, "Objects are not valid as a React child". *)
Inductive error :=
| TypeError
| InvalidChild.

(** A computation that returns or throws. *)
Inductive result (A : Type) :=
| Ok (a : A)
| Throw (e : error).
Arguments Ok {A} a.
Arguments Throw {A} e.

#[global] Instance result_bind : MBind result := fun A B k r =>
  match r with
  | Ok a => k a
  | Throw e => Throw e
  end.

(** [ToBoolean]: the truthiness of [if (v)], [v ? _ : _], [v || _], [!v] and
    [Boolean(v)]. *)
Definition truthy (v : value) : bool :=
  match v with
  | VUndefined | VNull => false
  | VBool b => b
  | VNum NaN => false
  | VNum (Int z) => negb (Z.eqb z 0)
  | VStr s => negb (String.eqb s "")
  | VObj _ _ => true
  end.

Definition Boolean (v : value) : bool := truthy v.

(** [a || b] *)
Definition logical_or (a b : value) : value := if truthy a then a else b.

(** [!a] *)
Definition logical_not (a : value) : value := VBool (negb (truthy a)).

(** [a === b] *)
Definition strict_eq (a b : value) : bool :=
  match a, b with
  | VUndefined, VUndefined => true
  | VNull, VNull => true
  | VBool x, VBool y => Bool.eqb x y
  | VNum (Int x), VNum (Int y) => Z.eqb x y
  | VStr x, VStr y => String.eqb x y
  | VObj r _, VObj r' _ => Pos.eqb r r'
  | _, _ => false
  end.

(** [Object.is(a, b)], the comparison React applies to hook dependencies. *)
Definition Object_is (a b : value) : bool :=
  match a, b with
  | VNum NaN, VNum NaN => true
  | _, _ => strict_eq a b
  end.

(** [undefined] and [null], the two values without properties. *)
Definition nullish (v : value) : bool :=
  match v with
  | VUndefined | VNull => true
  | _ => false
  end.

(** [o.k]: reading a property of [undefined] or [null] throws; a missing
    property is [undefined]; a primitive has none of the properties the
    components read. *)
Definition get (o : value) (k : string) : result value :=
  match o with
  | VUndefined | VNull => Throw TypeError
  | VObj _ props => Ok (default VUndefined (props !! k))
  | _ => Ok VUndefined
  end.

(** [o?.k]: as [o.k], but [undefined] for [undefined] and [null]. *)
Definition get_opt (o : value) (k : string) : value :=
  match o with
  | VObj _ props => default VUndefined (props !! k)
  | _ => VUndefined
  end.

(** A plain object. *)
Definition is_object (v : value) : bool :=
  match v with
  | VObj _ _ => true
  | _ => false
  end.

(** [Number.isSafeInteger(z)]: at most [Number.MAX_SAFE_INTEGER] in absolute
    value. *)
Definition safe_integer (z : Z) : bool := (Z.abs z <=? 2 ^ 53 - 1)%Z.

(** [String(n)], which writes a safe integer in decimal.  Beyond that range
    JavaScript rounds to a double and, from 1e21, writes an exponent, which
    the decimal text written here for [Int z] does not follow: what is
    proved of the digits of a number is proved of safe integers. *)
Definition number_to_string (n : number) : string :=
  match n with
  | NaN => "NaN"
  | Int z => NilZero.string_of_int (Z.to_int z)
  end.

End JS.

Import JS.

(** ** The [Circuit] component (lines 76-195) *)

Module Circuit.

(** The one hook cell: [const [openModal, setOpenModal] = useState(false)]. *)
Record Hooks := { openModal : bool }.

Definition setOpenModal (b : bool) (h : Hooks) : Hooks := {| openModal := b |}.

Definition handleClose (h : Hooks) : Hooks := setOpenModal false h.

(** What the component hands to [Modal]. *)
Record Modal := { open : bool }.

Definition render (h : Hooks) (circuitDetails : value) : Modal :=
  {| open := openModal h |}.

(** The events the component handles: a render with new props or a new
    [isFetching], [Modal]'s [onClose], and a click on the close icon. *)
Inductive Event :=
| Render (circuitDetails isFetching : value)
| ModalOnClose
| CloseClick.

Definition mount : Hooks := {| openModal := false |}.

Definition step (h : Hooks) (ev : Event) : Hooks :=
  match ev with
  | Render _ _ => h
  | ModalOnClose => handleClose h
  | CloseClick => handleClose h
  end.

Definition run (evs : list Event) : Hooks := foldl step mount evs.

End Circuit.

(** ** The [DashboardCard] component (lines 229-381) *)

Module Card.

(** The results of the four [useSelector] calls of one render. *)
Record Selected := {
  callSocketApi : value;    (* state.common.callSocketApi *)
  dashboardStats : value;   (* state.dashboard.dashboardOverview *)
  isError : value;          (* state.dashboard.fetchDashboardOverview.error *)
  isDeleted : value         (* state.dashboard.dispatchesDeleted *)
}.

(** The child of the first [Typography] of a card item. *)
Inductive Child :=
| Skeleton
| Content (v : value).

Record Item := { shown : Child; desc : string; align : string }.

Record Snackbar := { open : bool; autoHideDuration : Z; message : string }.

Record View := { snackbar : Snackbar; items : list Item }.

(** [DashBoardCardItems] (lines 331-368). *)
Definition DashBoardCardItems
    (desc : string) (content : value) (align : string)
    (isSkeletonPresent : value) : Item :=
  {| shown :=
       if truthy isSkeletonPresent then Skeleton
       else if truthy content || strict_eq content (VNum (Int 0))
            then Content content
            else Content (VStr "N/A");
     desc := desc;
     align := align |}.

(** The text React writes for a child: a string as it is, a number in
    decimal, nothing for a boolean, [null] or [undefined].  The skeleton is
    an element, not text, and a plain object is not a text child. *)
Definition text (c : Child) : option string :=
  match c with
  | Skeleton => None
  | Content (VStr s) => Some s
  | Content (VNum n) => Some (number_to_string n)
  | Content (VBool _) | Content VNull | Content VUndefined => Some ""
  | Content (VObj _ _) => None
  end.

(** React writes the children of a render before it commits it: a plain
    object is not a valid child, and the render throws. *)
Definition valid_child (c : Child) : bool :=
  match c with
  | Content (VObj _ _) => false
  | _ => true
  end.

Definition commit (v : View) : result View :=
  if forallb (fun item => valid_child (shown item)) (items v)
  then Ok v
  else Throw InvalidChild.

(** The actions the card dispatches to the store. *)
Inductive Action :=
| fetchDashboardOverview.

(** The hook cells of a mounted card, with the log of what it dispatched:
    the [useState] cell, and the dependencies each [useEffect] saw last. *)
Record Hooks := {
  openSnackbar : bool;
  fetchDeps : value * value;   (* [isDeleted, callSocketApi] *)
  errorDeps : value;           (* [isError] *)
  dispatched : list Action
}.

Definition setOpenSnackbar (b : bool) (h : Hooks) : Hooks :=
  {| openSnackbar := b; fetchDeps := fetchDeps h; errorDeps := errorDeps h;
     dispatched := dispatched h |}.

Definition dispatch (a : Action) (h : Hooks) : Hooks :=
  {| openSnackbar := openSnackbar h; fetchDeps := fetchDeps h;
     errorDeps := errorDeps h; dispatched := dispatched h ++ [a] |}.

Definition fetchDashboardOverviewResult (h : Hooks) : Hooks :=
  dispatch fetchDashboardOverview h.

(** The body of the second effect: [if (isError) setOpenSnackbar(true)]. *)
Definition errorEffect (sel : Selected) (h : Hooks) : Hooks :=
  if truthy (isError sel) then setOpenSnackbar true h else h.

(** React remembers the dependencies of the render it committed. *)
Definition commitDeps (sel : Selected) (h : Hooks) : Hooks :=
  {| openSnackbar := openSnackbar h;
     fetchDeps := (isDeleted sel, callSocketApi sel);
     errorDeps := isError sel;
     dispatched := dispatched h |}.

(** An effect is skipped when every dependency is [Object.is] the one of the
    previous render. *)
Definition sameFetchDeps (h : Hooks) (sel : Selected) : bool :=
  Object_is (fst (fetchDeps h)) (isDeleted sel)
  && Object_is (snd (fetchDeps h)) (callSocketApi sel).

Definition sameErrorDeps (h : Hooks) (sel : Selected) : bool :=
  Object_is (errorDeps h) (isError sel).

(** The hook cells the first render creates: [useState(Boolean(isError))]
    and the dependency arrays of the two effects. *)
Definition firstRender (sel : Selected) : Hooks :=
  {| openSnackbar := Boolean (isError sel);
     fetchDeps := (isDeleted sel, callSocketApi sel);
     errorDeps := isError sel;
     dispatched := [] |}.

(** After the first render both effects run. *)
Definition mountEffects (sel : Selected) (h : Hooks) : Hooks :=
  errorEffect sel (fetchDashboardOverviewResult h).

(** After a later render an effect runs if one of its dependencies changed.
    A state update made by an effect or by a handler renders the card again
    against the same selection, where no dependency has changed. *)
Definition updateEffects (sel : Selected) (h : Hooks) : Hooks :=
  let h1 := if sameFetchDeps h sel then h else fetchDashboardOverviewResult h in
  let h2 := if sameErrorDeps h sel then h1 else errorEffect sel h1 in
  commitDeps sel h2.

(** What reaches the mounted card: a render against the store (a store
    update, or a render of the parent), [Snackbar]'s [onClose] (its
    auto-hide timer, a click away, Escape), a click on the close icon. *)
Inductive Event :=
| Render (sel : Selected)
| SnackbarOnClose
| CloseIconClick.

(** What an event does to the hook cells once its render, if it has one, is
    committed; both dismissals call [setOpenSnackbar(false)]. *)
Definition handle (h : Hooks) (ev : Event) : Hooks :=
  match ev with
  | Render sel => updateEffects sel h
  | SnackbarOnClose => setOpenSnackbar false h
  | CloseIconClick => setOpenSnackbar false h
  end.

Section Formatters.

(** [statusLabel] and [secondsToHms] of [utils/misc]. *)
Variables statusLabel secondsToHms : value -> value.

(** The element [DashboardCard] returns (lines 259-328). *)
Definition DashboardCard (openSnackbar : bool) (sel : Selected) : result View :=
  let dashboardStats := dashboardStats sel in
  running ← get dashboardStats "total_jobs_running";
  completed ← get dashboardStats "total_jobs_completed";
  status ← get dashboardStats "latest_running_task_status";
  duration ←
    (if truthy (get_opt dashboardStats "total_dispatcher_duration")
     then d ← get dashboardStats "total_dispatcher_duration";
          Ok (secondsToHms d)
     else Ok (VStr "N/A"));
  Ok {| snackbar :=
          {| open := openSnackbar;
             autoHideDuration := 3000;
             message :=
               "Something went wrong,please contact the administrator!" |};
        items :=
          [ DashBoardCardItems "Total jobs running" running "center"
              (logical_not dashboardStats);
            DashBoardCardItems "Total jobs done" completed "center"
              (logical_not dashboardStats);
            DashBoardCardItems "Latest running task status"
              (logical_or (statusLabel status) (VStr "N/A")) "center"
              (logical_not dashboardStats);
            DashBoardCardItems "Total dispatcher duration" duration "flex-end"
              (logical_not dashboardStats) ] |}.

(** Mounting: the first render, and both effects once it is committed.  A
    render that throws, in the component or when React writes its children,
    commits nothing and runs no effect. *)
Definition mount (sel : Selected) : result Hooks :=
  let h := firstRender sel in
  v ← DashboardCard (openSnackbar h) sel;
  _ ← commit v;
  Ok (mountEffects sel h).

(** A later render, and the effects once it is committed. *)
Definition update (h : Hooks) (sel : Selected) : result Hooks :=
  v ← DashboardCard (openSnackbar h) sel;
  _ ← commit v;
  Ok (updateEffects sel h).

(** The renders React commits, read off the selection: the statistics are
    neither [undefined] nor [null], and, unless they are falsy and every
    item is a skeleton, no content handed to an item is a plain object:
    neither count, nor the label of the status, nor the text of a truthy
    duration. *)
Definition commits (sel : Selected) : bool :=
  let st := dashboardStats sel in
  negb (nullish st)
  && (negb (truthy st)
      || negb
           (is_object (get_opt st "total_jobs_running")
            || is_object (get_opt st "total_jobs_completed")
            || is_object
                 (statusLabel (get_opt st "latest_running_task_status"))
            || truthy (get_opt st "total_dispatcher_duration")
               && is_object
                    (secondsToHms (get_opt st "total_dispatcher_duration")))).

Definition commits_at (ev : Event) : bool :=
  match ev with
  | Render sel => commits sel
  | _ => true
  end.

Definition step (h : Hooks) (ev : Event) : result Hooks :=
  match ev with
  | Render sel => update h sel
  | SnackbarOnClose => Ok (setOpenSnackbar false h)
  | CloseIconClick => Ok (setOpenSnackbar false h)
  end.

Fixpoint run_from (h : Hooks) (evs : list Event) : result Hooks :=
  match evs with
  | [] => Ok h
  | ev :: evs' => h' ← step h ev; run_from h' evs'
  end.

Definition run (sel : Selected) (evs : list Event) : result Hooks :=
  h ← mount sel; run_from h evs.

End Formatters.

(** ** Observations on a trace of events *)

(** The component function returns for [sel]: the statistics are neither
    [undefined] nor [null], so that their properties can be read. *)
Definition renders (sel : Selected) : bool := negb (nullish (dashboardStats sel)).

(** The number of renders at which [isDeleted] or [callSocketApi] is not the
    value of the render before, [d] and [c] being those of the last render. *)
Fixpoint trigger_changes (d c : value) (evs : list Event) : nat :=
  match evs with
  | [] => 0
  | Render sel :: evs' =>
      (if Object_is d (isDeleted sel) && Object_is c (callSocketApi sel)
       then 0 else 1)
      + trigger_changes (isDeleted sel) (callSocketApi sel) evs'
  | _ :: evs' => trigger_changes d c evs'
  end.


(** The error flag of the last render of a trace that started at [prev]. *)
Fixpoint last_error (prev : value) (evs : list Event) : value :=
  match evs with
  | [] => prev
  | Render sel :: evs' => last_error (isError sel) evs'
  | _ :: evs' => last_error prev evs'
  end.

(** No render of the trace has a truthy error flag. *)
Definition never_error (evs : list Event) : bool :=
  forallb (fun ev => match ev with
                     | Render sel => negb (truthy (isError sel))
                     | _ => true
                     end) evs.

(** No render of the trace brings a new truthy error flag: at each render
    the flag is the one of the render before, or it is falsy. *)
Fixpoint no_new_error (prev : value) (evs : list Event) : bool :=
  match evs with
  | [] => true
  | Render sel :: evs' =>
      (Object_is prev (isError sel) || negb (truthy (isError sel)))
      && no_new_error (isError sel) evs'
  | _ :: evs' => no_new_error prev evs'
  end.

(** A selection with loaded, empty statistics and the error flag [e]. *)
Definition loaded (e : value) : Selected :=
  {| callSocketApi := VBool false;
     dashboardStats := VObj 1 ∅;
     isError := e;
     isDeleted := VBool false |}.

(** A selection with loaded, empty statistics, no error, and the triggers
    [d] and [c]. *)
Definition triggered (d c : value) : Selected :=
  {| callSocketApi := c;
     dashboardStats := VObj 1 ∅;
     isError := VNull;
     isDeleted := d |}.

(** A selection whose statistics are the object of reference 1 with the
    properties [props]. *)
Definition with_stats (props : gmap string value) : Selected :=
  {| callSocketApi := VBool false;
     dashboardStats := VObj 1 props;
     isError := VNull;
     isDeleted := VBool false |}.

Definition dismissal (ev : Event) : bool :=
  match ev with
  | SnackbarOnClose | CloseIconClick => true
  | Render _ => false
  end.

End Card.

Import Card.

(** ** [SingleGrid] and what [Circuit] returns (lines 45-195) *)

Module Grid.

(** [a && b] *)
Definition logical_and (a b : value) : value := if truthy a then b else a.

(** A [SingleGrid]: its title and the child below it. *)
Record Cell := { title : string; body : Child }.

(** [SingleGrid] (lines 45-74); [isFetching] is what its [useSelector]
    returns, [state.electronResults.qelectronJobOverviewList.isFetching]. *)
Definition SingleGrid (isFetching : value) (title : string) (value : value)
    : Cell :=
  {| title := title;
     body :=
       if truthy (logical_and isFetching (logical_not value)) then Skeleton
       else Content (if truthy value then value else VStr "-") |}.

(** What [Circuit] hands to [SyntaxHighlighter] (line 124). *)
Record SyntaxHighlighter := {
  src : value;
  preview : bool;
  fullwidth : bool;
  isFetching : value
}.

Record View := {
  topGrid : list Cell;
  bottomGrid : SyntaxHighlighter;
  modal : Circuit.Modal
}.

(** The element [Circuit] returns (lines 86-194). *)
Definition view (h : Circuit.Hooks) (circuitDetails isFetching : value)
    : View :=
  {| topGrid :=
       [ SingleGrid isFetching "No. of Qbits"
           (get_opt circuitDetails "total_qbits");
         SingleGrid isFetching "No.1 Qbit Gates"
           (get_opt circuitDetails "qbit1_gates");
         SingleGrid isFetching "No.2 Qbit Gates"
           (get_opt circuitDetails "qbit2_gates");
         SingleGrid isFetching "Depth" (get_opt circuitDetails "depth") ];
     bottomGrid :=
       {| src := get_opt circuitDetails "circuit_diagram";
          preview := true;
          fullwidth := true;
          isFetching := isFetching |};
     modal := Circuit.render h circuitDetails |}.

(** The four properties of [circuitDetails] shown in the top grid, in the
    order of the cells. *)
Definition fields : list string :=
  [ "total_qbits"; "qbit1_gates"; "qbit2_gates"; "depth" ].

End Grid.

(** ** More observations on a trace *)

(** The number of renders of a trace. *)
Definition count_renders (evs : list Event) : nat :=
  length (filter (fun ev => dismissal ev = false) evs).

(** No event of the trace is a dismissal. *)
Definition no_dismissal (evs : list Event) : bool :=
  forallb (fun ev => negb (dismissal ev)) evs.

(** The values React writes as text that is never empty: every value but
    [true], which leaves no text, and a plain object, which is no text
    child; [false], [null], [undefined] and the empty string are falsy and
    never reach the page as they are. *)
Definition writes_text (v : value) : bool :=
  match v with
  | VBool true | VObj _ _ => false
  | _ => true
  end.

(** The four properties of the statistics shown by the card, in the order
    of the items. *)
Definition metrics : list string :=
  [ "total_jobs_running"; "total_jobs_completed";
    "latest_running_task_status"; "total_dispatcher_duration" ].

(** ** Rendering the card *)

Section Rendering.

Context (statusLabel secondsToHms : value -> value).

Local Abbreviation DashboardCard := (DashboardCard statusLabel secondsToHms).

(** Reading a property of a value that is not [undefined] or [null] returns. *)
Lemma get_not_nullish o k :
  nullish o = false -> get o k = Ok (get_opt o k).
Proof. destruct o; simpl; intros; congruence. Qed.

Lemma get_nullish o k : nullish o = true -> get o k = Throw TypeError.
Proof. destruct o; simpl; intros; congruence. Qed.



Lemma DashboardCard_throws open sel :
  renders sel = false -> DashboardCard open sel = Throw TypeError.
Proof.
  unfold renders, Card.DashboardCard. intros H%negb_false_iff.
  destruct (dashboardStats sel); try discriminate H; reflexivity.
Qed.

(** The items of a render that returns, from the statistics [st]. *)
Lemma DashboardCard_items open sel :
  renders sel = true ->
  let st := dashboardStats sel in
  exists v,
    DashboardCard open sel = Ok v /\
    items v =
      [ DashBoardCardItems "Total jobs running"
          (get_opt st "total_jobs_running") "center" (logical_not st);
        DashBoardCardItems "Total jobs done"
          (get_opt st "total_jobs_completed") "center" (logical_not st);
        DashBoardCardItems "Latest running task status"
          (logical_or (statusLabel (get_opt st "latest_running_task_status"))
             (VStr "N/A")) "center" (logical_not st);
        DashBoardCardItems "Total dispatcher duration"
          (if truthy (get_opt st "total_dispatcher_duration")
           then secondsToHms (get_opt st "total_dispatcher_duration")
           else VStr "N/A") "flex-end" (logical_not st) ].
Proof.
  unfold renders, Card.DashboardCard. intros H%negb_true_iff. simpl.
  rewrite !(get_not_nullish _ _ H). cbn [mbind result_bind].
  destruct (truthy (get_opt _ "total_dispatcher_duration"));
    cbn [mbind result_bind]; by eexists.
Qed.

Lemma shown_DashBoardCardItems desc content align st :
  truthy st = true ->
  shown (DashBoardCardItems desc content align (logical_not st))
  = if truthy content || strict_eq content (VNum (Int 0))
    then Content content else Content (VStr "N/A").
Proof. intros H. unfold DashBoardCardItems, logical_not. simpl. by rewrite H. Qed.

(** *** What React commits *)

Lemma valid_item desc content align st :
  valid_child (shown (DashBoardCardItems desc content align (logical_not st)))
  = negb (truthy st && is_object content).
Proof.
  unfold DashBoardCardItems, logical_not. simpl.
  destruct (truthy st); [|done]. simpl.
  by destruct content as [| |[|]|[|z]|x|r p]; simpl;
    try destruct (_ || _).
Qed.

Lemma is_object_logical_or a :
  is_object (logical_or a (VStr "N/A")) = is_object a.
Proof. unfold logical_or. by destruct a as [| |[|]|[|z]|x|r p]; simpl;
  try destruct (negb _). Qed.

Lemma commits_renders sel :
  commits statusLabel secondsToHms sel = true -> renders sel = true.
Proof. unfold commits, renders. by intros [H _]%andb_true_iff. Qed.

(** A render that returns is committed exactly when [commits] says so. *)
Lemma render_commit open sel :
  renders sel = true ->
  exists v,
    DashboardCard open sel = Ok v /\
    commit v
    = if commits statusLabel secondsToHms sel then Ok v
      else Throw InvalidChild.
Proof.
  intros Hsel. destruct (DashboardCard_items open sel Hsel) as (v & Hv & Hit).
  exists v. split; [done|]. unfold commit. rewrite Hit. cbn [forallb].
  rewrite !valid_item, is_object_logical_or. unfold commits.
  fold (renders sel). rewrite Hsel.
  destruct (truthy (dashboardStats sel)); [|done].
  destruct (truthy (get_opt _ "total_dispatcher_duration"));
    cbn [is_object];
    repeat match goal with
           | |- context [is_object ?x] => destruct (is_object x)
           end; reflexivity.
Qed.

Lemma mount_commits sel :
  commits statusLabel secondsToHms sel = true ->
  mount statusLabel secondsToHms sel = Ok (mountEffects sel (firstRender sel)).
Proof.
  intros H. unfold mount.
  destruct (render_commit (openSnackbar (firstRender sel)) sel
              (commits_renders sel H)) as (v & -> & Hc).
  cbn [mbind result_bind]. by rewrite Hc, H.
Qed.

Lemma update_commits h sel :
  commits statusLabel secondsToHms sel = true ->
  update statusLabel secondsToHms h sel = Ok (updateEffects sel h).
Proof.
  intros H. unfold update.
  destruct (render_commit (openSnackbar h) sel (commits_renders sel H))
    as (v & -> & Hc).
  cbn [mbind result_bind]. by rewrite Hc, H.
Qed.

(** A render that is not committed throws: a [TypeError] in the component
    when the statistics are [undefined] or [null], the error of React
    otherwise. *)
Lemma render_throws open sel :
  commits statusLabel secondsToHms sel = false ->
  (v ← DashboardCard open sel; commit v)
  = Throw (if renders sel then InvalidChild else TypeError).
Proof.
  intros H. destruct (renders sel) eqn:Hsel.
  - destruct (render_commit open sel Hsel) as (v & -> & Hc).
    cbn [mbind result_bind]. by rewrite Hc, H.
  - by rewrite DashboardCard_throws.
Qed.

Lemma mount_throws sel :
  commits statusLabel secondsToHms sel = false ->
  mount statusLabel secondsToHms sel
  = Throw (if renders sel then InvalidChild else TypeError).
Proof.
  intros H. unfold mount.
  pose proof (render_throws (openSnackbar (firstRender sel)) sel H) as E.
  destruct (Card.DashboardCard _ _ _ _) as [v|e]; cbn [mbind result_bind] in *;
    [by rewrite E | by injection E as ->].
Qed.

Lemma update_throws h sel :
  commits statusLabel secondsToHms sel = false ->
  update statusLabel secondsToHms h sel
  = Throw (if renders sel then InvalidChild else TypeError).
Proof.
  intros H. unfold update.
  pose proof (render_throws (openSnackbar h) sel H) as E.
  destruct (Card.DashboardCard _ _ _ _) as [v|e]; cbn [mbind result_bind] in *;
    [by rewrite E | by injection E as ->].
Qed.

(** What a mount and a later render return, when they return. *)
Lemma mount_Ok sel h :
  mount statusLabel secondsToHms sel = Ok h ->
  h = mountEffects sel (firstRender sel).
Proof.
  destruct (commits statusLabel secondsToHms sel) eqn:H.
  - rewrite (mount_commits sel H). by intros [= <-].
  - by rewrite (mount_throws sel H).
Qed.

Lemma update_Ok h sel h' :
  update statusLabel secondsToHms h sel = Ok h' -> h' = updateEffects sel h.
Proof.
  destruct (commits statusLabel secondsToHms sel) eqn:H.
  - rewrite (update_commits h sel H). by intros [= <-].
  - by rewrite (update_throws h sel H).
Qed.

(** C2 (as amended).  When the statistics are an object whose
    [total_jobs_running] is [undefined], the first metric of the card shows
    the literal "N/A": neither the skeleton nor "0". *)
Theorem absent_jobs_running_shows_NA open sel ref props :
  dashboardStats sel = VObj ref props ->
  get_opt (dashboardStats sel) "total_jobs_running" = VUndefined ->
  exists v item,
    DashboardCard open sel = Ok v /\ items v !! 0 = Some item /\
    desc item = "Total jobs running" /\
    shown item = Content (VStr "N/A") /\ shown item <> Skeleton /\
    text (shown item) = Some "N/A" /\ text (shown item) <> Some "0".
Proof.
  intros Hobj Hrun. unfold Card.DashboardCard.
  rewrite !get_not_nullish by (rewrite Hobj; reflexivity).
  rewrite Hrun. cbn [mbind result_bind].
  destruct (truthy (get_opt _ "total_dispatcher_duration"));
    cbn [mbind result_bind]; eexists; eexists;
    (split; [reflexivity |]); rewrite Hobj; repeat split; compute; congruence.
Qed.

(** C7.  When the statistics are an object whose [total_jobs_running] is the
    number 0, the first metric of the card shows that number, which React
    writes as "0", not "N/A". *)
Theorem zero_jobs_running_shows_0 open sel ref props :
  dashboardStats sel = VObj ref props ->
  props !! "total_jobs_running" = Some (VNum (Int 0)) ->
  exists v item,
    DashboardCard open sel = Ok v /\ items v !! 0 = Some item /\
    desc item = "Total jobs running" /\
    shown item = Content (VNum (Int 0)) /\
    text (shown item) = Some "0" /\ text (shown item) <> Some "N/A".
Proof.
  intros Hobj Hrun. unfold Card.DashboardCard.
  rewrite Hobj. cbn [get get_opt]. rewrite Hrun. cbn [mbind result_bind default].
  destruct (truthy (default _ (props !! "total_dispatcher_duration")));
    cbn [mbind result_bind]; eexists; eexists;
    (split; [reflexivity |]); repeat split; compute; congruence.
Qed.

(** C8.  When the statistics are an object whose [total_dispatcher_duration]
    is the number 0, the fourth metric of the card shows the literal "N/A",
    whatever [secondsToHms] is: it is not applied. *)
Theorem zero_duration_shows_NA open sel ref props :
  dashboardStats sel = VObj ref props ->
  props !! "total_dispatcher_duration" = Some (VNum (Int 0)) ->
  exists v item,
    DashboardCard open sel = Ok v /\ items v !! 3 = Some item /\
    desc item = "Total dispatcher duration" /\
    shown item = Content (VStr "N/A") /\ text (shown item) = Some "N/A".
Proof.
  intros Hobj Hdur. unfold Card.DashboardCard.
  rewrite Hobj. cbn [get get_opt]. rewrite Hdur.
  cbn [mbind result_bind default truthy Z.eqb negb].
  eexists; eexists. split; [reflexivity |]. cbn. repeat split.
Qed.

(** C3, at the input where it fails.  With [undefined] or [null] for the
    statistics the render throws a [TypeError] at
    [dashboardStats.total_jobs_running]. *)
Theorem DashboardCard_not_loaded_throws open c e d :
  DashboardCard open
    {| callSocketApi := c; dashboardStats := VUndefined;
       isError := e; isDeleted := d |} = Throw TypeError /\
  DashboardCard open
    {| callSocketApi := c; dashboardStats := VNull;
       isError := e; isDeleted := d |} = Throw TypeError.
Proof. split; reflexivity. Qed.

End Rendering.

(** ** Values that [Object.is] identifies *)

Lemma Object_is_truthy a b : Object_is a b = true -> truthy a = truthy b.
Proof.
  destruct a as [| |x|[|x]|x|r p], b as [| |y|[|y]|y|r' p']; simpl;
    try congruence.
  - intros H. apply Bool.eqb_prop in H. by subst.
  - intros H%Z.eqb_eq. by subst.
  - intros H%String.eqb_eq. by subst.
Qed.

(** A falsy value and a truthy one are never the same dependency. *)
Lemma rising_edge_changes a b :
  truthy a = false -> truthy b = true -> Object_is a b = false.
Proof.
  intros Ha Hb. destruct (Object_is a b) eqn:E; [|done].
  apply Object_is_truthy in E. congruence.
Qed.

(** ** The mounted card *)

Section Behaviour.

Context (statusLabel secondsToHms : value -> value).

Local Abbreviation DashboardCard := (DashboardCard statusLabel secondsToHms).
Local Abbreviation mount := (mount statusLabel secondsToHms).
Local Abbreviation update := (update statusLabel secondsToHms).
Local Abbreviation step := (step statusLabel secondsToHms).
Local Abbreviation run_from := (run_from statusLabel secondsToHms).
Local Abbreviation run := (run statusLabel secondsToHms).
Local Abbreviation commits := (commits statusLabel secondsToHms).
Local Abbreviation commits_at := (commits_at statusLabel secondsToHms).
Local Abbreviation mount_commits := (mount_commits statusLabel secondsToHms).
Local Abbreviation update_commits := (update_commits statusLabel secondsToHms).

(** The step of an event whose render React commits, as a function of the
    cells. *)
Lemma step_commits h ev :
  commits_at ev = true ->
  step h ev = Ok match ev with
                 | Render sel => updateEffects sel h
                 | _ => setOpenSnackbar false h
                 end.
Proof. destruct ev; simpl; [apply update_commits | done | done]. Qed.

Lemma run_from_cons h ev evs h' :
  step h ev = Ok h' -> run_from h (ev :: evs) = run_from h' evs.
Proof. simpl. by intros ->. Qed.

(** A trace whose renders React commits runs to the end. *)
Lemma run_from_total evs : forall h,
  forallb commits_at evs = true -> exists h', run_from h evs = Ok h'.
Proof.
  induction evs as [|ev evs IH]; intros h Hr; [by exists h|].
  apply andb_true_iff in Hr as [Hev Hr].
  rewrite (run_from_cons _ _ _ _ (step_commits h ev Hev)). by apply IH.
Qed.

(** Over renders React commits, a run is the fold of [handle]. *)
Lemma run_from_commits evs : forall h,
  forallb commits_at evs = true -> run_from h evs = Ok (foldl handle h evs).
Proof.
  induction evs as [|ev evs IH]; intros h Hr; [done|].
  apply andb_true_iff in Hr as [Hev Hr].
  rewrite (run_from_cons _ _ _ _ (step_commits h ev Hev)). simpl.
  rewrite <- (IH _ Hr). by destruct ev.
Qed.

Lemma run_commits sel evs :
  commits sel = true -> forallb commits_at evs = true ->
  run sel evs = Ok (foldl handle (mountEffects sel (firstRender sel)) evs).
Proof.
  intros Hsel Hevs. unfold Card.run. rewrite (mount_commits sel Hsel).
  by apply run_from_commits.
Qed.

(** The selections with empty statistics are committed when [statusLabel]
    gives no object for [undefined]. *)
Lemma commits_loaded e :
  is_object (statusLabel VUndefined) = false -> commits (loaded e) = true.
Proof.
  intros H. unfold Card.commits, loaded. cbn [dashboardStats].
  change (get_opt (VObj 1 ∅) "latest_running_task_status") with VUndefined.
  by rewrite H.
Qed.

(** *** The fetch effect *)

Lemma dispatched_updateEffects sel h :
  dispatched (updateEffects sel h)
  = dispatched h ++ (if sameFetchDeps h sel then [] else [fetchDashboardOverview]).
Proof.
  unfold updateEffects, errorEffect, sameFetchDeps.
  destruct (_ && _), (sameErrorDeps h sel), (truthy (isError sel)); simpl;
    by rewrite ?app_nil_r.
Qed.

Lemma fetchDeps_updateEffects sel h :
  fetchDeps (updateEffects sel h) = (isDeleted sel, callSocketApi sel).
Proof. reflexivity. Qed.

Lemma run_from_fetch_count evs : forall h h',
  run_from h evs = Ok h' ->
  length (dispatched h')
  = length (dispatched h)
    + trigger_changes (fst (fetchDeps h)) (snd (fetchDeps h)) evs.
Proof.
  induction evs as [|ev evs IH]; intros h h'; simpl.
  - intros [= ->]. lia.
  - destruct (Card.step _ _ h ev) as [h0|e] eqn:Hstep; simpl; [|discriminate].
    intros Hrun. rewrite (IH _ _ Hrun). clear IH Hrun.
    destruct ev as [sel| |]; simpl in Hstep.
    + apply update_Ok in Hstep as ->.
      rewrite dispatched_updateEffects, fetchDeps_updateEffects, length_app.
      unfold sameFetchDeps. simpl. destruct (_ && _); simpl; lia.
    + by injection Hstep as <-.
    + by injection Hstep as <-.
Qed.



(** *** The notifier *)

Lemma openSnackbar_updateEffects sel h :
  openSnackbar (updateEffects sel h)
  = openSnackbar h
    || (negb (Object_is (errorDeps h) (isError sel)) && truthy (isError sel)).
Proof.
  unfold updateEffects, errorEffect, sameErrorDeps.
  destruct (sameFetchDeps h sel), (Object_is _ _), (truthy (isError sel));
    simpl; by rewrite ?orb_false_r, ?orb_true_r.
Qed.

Lemma errorDeps_updateEffects sel h :
  errorDeps (updateEffects sel h) = isError sel.
Proof. reflexivity. Qed.

Lemma openSnackbar_mount sel :
  openSnackbar (mountEffects sel (firstRender sel)) = truthy (isError sel).
Proof.
  unfold mountEffects, errorEffect, firstRender, Boolean.
  by destruct (truthy (isError sel)).
Qed.

(** The error dependency of the cells is the flag of the last render. *)
Lemma run_from_errorDeps evs : forall h h',
  run_from h evs = Ok h' -> errorDeps h' = last_error (errorDeps h) evs.
Proof.
  induction evs as [|ev evs IH]; intros h h'; simpl.
  - by intros [= ->].
  - destruct (Card.step _ _ h ev) as [h0|e] eqn:Hstep; simpl; [|discriminate].
    intros Hrun. rewrite (IH _ _ Hrun). clear IH Hrun.
    destruct ev as [sel| |]; simpl in Hstep.
    + by apply update_Ok in Hstep as ->.
    + by injection Hstep as <-.
    + by injection Hstep as <-.
Qed.

(** A hidden notification stays hidden while no render brings a new truthy
    error flag. *)
Lemma run_from_stays_hidden evs : forall h h',
  openSnackbar h = false -> no_new_error (errorDeps h) evs = true ->
  run_from h evs = Ok h' -> openSnackbar h' = false.
Proof.
  induction evs as [|ev evs IH]; intros h h' Hh Hno; simpl.
  - by intros [= <-].
  - destruct (Card.step _ _ h ev) as [h0|e] eqn:Hstep; simpl; [|discriminate].
    apply IH; clear IH; destruct ev as [sel| |]; simpl in Hstep, Hno.
    + apply update_Ok in Hstep as ->. rewrite openSnackbar_updateEffects, Hh.
      apply andb_true_iff in Hno as [Hno _].
      destruct (Object_is _ _), (truthy (isError sel)); done.
    + by injection Hstep as <-.
    + by injection Hstep as <-.
    + apply update_Ok in Hstep as ->. rewrite errorDeps_updateEffects.
      by apply andb_true_iff in Hno as [_ Hno].
    + by injection Hstep as <-.
    + by injection Hstep as <-.
Qed.

(** A trace without a truthy flag brings no new truthy flag. *)
Lemma never_error_no_new evs : forall prev,
  never_error evs = true -> no_new_error prev evs = true.
Proof.
  induction evs as [|[sel| |] evs IH]; intros prev; simpl; auto.
  intros [-> Hevs]%andb_true_iff. rewrite orb_true_r. simpl. by apply IH.
Qed.


(** C4 (as amended).  Over a trace whose renders React commits: the
    notification is hidden as long as no render had a truthy error flag; and after a
    dismissal it stays hidden as long as no render brings a new truthy
    error flag, that is a flag that is truthy and not [Object.is] the flag
    of the render before. *)
Theorem notification_invariant sel evs d evs' :
  commits sel = true -> forallb commits_at evs = true ->
  dismissal d = true -> forallb commits_at evs' = true ->
  exists h h',
    run sel evs = Ok h /\ run_from h (d :: evs') = Ok h' /\
    (truthy (isError sel) = false -> never_error evs = true ->
     openSnackbar h = false) /\
    (no_new_error (last_error (isError sel) evs) evs' = true ->
     openSnackbar h' = false).
Proof.
  intros Hsel Hevs Hd Hevs'.
  unfold Card.run. rewrite (mount_commits sel Hsel). simpl.
  destruct (run_from_total evs (mountEffects sel (firstRender sel)) Hevs)
    as [h Hrun].
  destruct (run_from_total evs' (setOpenSnackbar false h) Hevs')
    as [h' Hrun'].
  exists h, h'. split; [done|].
  assert (Hstep : step h d = Ok (setOpenSnackbar false h))
    by (by destruct d).
  split; [by rewrite Hstep|]. split.
  - intros Hfalsy Hnever.
    eapply run_from_stays_hidden; [| |exact Hrun].
    + by rewrite openSnackbar_mount.
    + by apply never_error_no_new.
  - intros Hno. eapply run_from_stays_hidden; [| |exact Hrun']; [done|].
    simpl. rewrite (run_from_errorDeps _ _ _ Hrun).
    unfold mountEffects, errorEffect. by destruct (truthy (isError sel)).
Qed.

(** C5 (as amended).  At a render React commits, after a trace whose renders
    it commits, [prev] being the error flag of the render before: a falsy [prev] and a
    truthy flag make the notification visible; a hidden notification becomes
    visible exactly when the flag is truthy and not [Object.is] [prev]; a
    flag that is [Object.is] [prev], and a falsy flag, leave the visibility
    as it was. *)
Theorem notifier_edge_triggered sel0 evs sel :
  commits sel0 = true -> forallb commits_at evs = true -> commits sel = true ->
  exists h h',
    run sel0 evs = Ok h /\ step h (Render sel) = Ok h' /\
    (truthy (last_error (isError sel0) evs) = false ->
     truthy (isError sel) = true -> openSnackbar h' = true) /\
    (openSnackbar h = false ->
     (openSnackbar h' = true <->
      Object_is (last_error (isError sel0) evs) (isError sel) = false /\
      truthy (isError sel) = true)) /\
    (Object_is (last_error (isError sel0) evs) (isError sel) = true ->
     openSnackbar h' = openSnackbar h) /\
    (truthy (isError sel) = false -> openSnackbar h' = openSnackbar h).
Proof.
  intros Hsel0 Hevs Hsel.
  unfold Card.run. rewrite (mount_commits sel0 Hsel0). simpl.
  destruct (run_from_total evs (mountEffects sel0 (firstRender sel0)) Hevs)
    as [h Hrun].
  exists h, (updateEffects sel h). split; [done|].
  split; [by apply update_commits|].
  rewrite openSnackbar_updateEffects.
  assert (Hprev : errorDeps h = last_error (isError sel0) evs).
  { rewrite (run_from_errorDeps _ _ _ Hrun).
    unfold mountEffects, errorEffect. by destruct (truthy (isError sel0)). }
  rewrite Hprev. clear Hprev Hrun.
  destruct (openSnackbar h), (Object_is _ (isError sel)) eqn:Hsame,
    (truthy (isError sel)) eqn:Hflag; simpl;
    repeat split; try done; try (by intros []).
  intros Hprev _. by rewrite (rising_edge_changes _ _ Hprev Hflag) in Hsame.
Qed.

End Behaviour.

(** Either dismissal hides the notification at once, whatever the cells. *)
Lemma dismissal_hides statusLabel secondsToHms h d :
  dismissal d = true ->
  exists h', step statusLabel secondsToHms h d = Ok h' /\ openSnackbar h' = false.
Proof. destruct d; [done| |]; intros _; by eexists. Qed.

(** For a boolean error flag a change to a truthy value is a change from
    [false] to [true]. *)
Lemma boolean_flag_edge (prev cur : bool) :
  Object_is (VBool prev) (VBool cur) = false /\ truthy (VBool cur) = true <->
  prev = false /\ cur = true.
Proof. destruct prev, cur; simpl; split; intros [? ?]; done. Qed.

(** ** The modal of [Circuit] *)

Lemma Circuit_step_closed h ev :
  Circuit.openModal h = false -> Circuit.openModal (Circuit.step h ev) = false.
Proof. by destruct ev. Qed.

Lemma Circuit_foldl_closed evs : forall h,
  Circuit.openModal h = false ->
  Circuit.openModal (foldl Circuit.step h evs) = false.
Proof.
  induction evs as [|ev evs IH]; intros h Hh; simpl; [done|].
  by apply IH, Circuit_step_closed.
Qed.

(** C10.  [openModal] starts as [false], [handleClose] sets it to [false],
    and after every sequence of events of the component it is [false], so
    [Modal] is never handed [open = true]. *)
Theorem modal_never_open evs circuitDetails :
  Circuit.openModal Circuit.mount = false /\
  (forall h, Circuit.openModal (Circuit.handleClose h) = false) /\
  Circuit.openModal (Circuit.run evs) = false /\
  Circuit.open (Circuit.render (Circuit.run evs) circuitDetails) = false.
Proof.
  pose proof (Circuit_foldl_closed evs Circuit.mount eq_refl) as Hrun.
  split; [reflexivity|]. split; [reflexivity|]. split; exact Hrun.
Qed.

(** ** Concrete runs *)

(** C2, as stated, fails: with the statistics an empty object, so that
    [total_jobs_running] is [undefined], the first metric is the text "N/A"
    and not the skeleton. *)
Lemma absent_jobs_running_not_skeleton :
  get_opt (dashboardStats (with_stats ∅)) "total_jobs_running" = VUndefined /\
  forall statusLabel secondsToHms open,
  exists v item,
    DashboardCard statusLabel secondsToHms open (with_stats ∅) = Ok v /\
    items v !! 0 = Some item /\
    shown item = Content (VStr "N/A") /\ shown item <> Skeleton.
Proof.
  split; [reflexivity|]. intros sl hms open.
  eexists; eexists. split; [vm_compute; reflexivity|].
  split; [reflexivity|]. split; [reflexivity|discriminate].
Qed.



(** C4, as stated, fails: the error flag is "timeout" at mount, the user
    dismisses the notification, and a render with the flag "refused" shows it
    again, although no render had a falsy flag. *)
Lemma dismissed_rearmed_by_another_error :
  truthy (VStr "timeout") = true /\ truthy (VStr "refused") = true /\
  forall statusLabel secondsToHms,
  is_object (statusLabel VUndefined) = false ->
  exists h h',
    run statusLabel secondsToHms (loaded (VStr "timeout")) [CloseIconClick]
    = Ok h /\
    openSnackbar h = false /\
    run statusLabel secondsToHms (loaded (VStr "timeout"))
      [CloseIconClick; Render (loaded (VStr "refused"))]
    = Ok h' /\
    openSnackbar h' = true.
Proof.
  split; [reflexivity|]. split; [reflexivity|]. intros sl hms Hsl.
  pose proof (commits_loaded sl hms (VStr "timeout") Hsl) as H1.
  pose proof (commits_loaded sl hms (VStr "refused") Hsl) as H2.
  eexists; eexists.
  split; [by apply run_commits|]. split; [reflexivity|].
  split; [apply run_commits; [done|]; simpl; by rewrite H2|reflexivity].
Qed.

(** C5, as stated, fails: the error flag is an error object at mount, the
    snackbar closes, and a render whose flag is another error object makes
    the hidden notification visible, from a truthy flag to a truthy flag. *)
Lemma visible_on_truthy_to_truthy :
  truthy (VObj 7 ∅) = true /\ truthy (VObj 8 ∅) = true /\
  forall statusLabel secondsToHms,
  is_object (statusLabel VUndefined) = false ->
  exists h h',
    run statusLabel secondsToHms (loaded (VObj 7 ∅)) [SnackbarOnClose]
    = Ok h /\
    openSnackbar h = false /\ errorDeps h = VObj 7 ∅ /\
    step statusLabel secondsToHms h (Render (loaded (VObj 8 ∅))) = Ok h' /\
    openSnackbar h' = true.
Proof.
  split; [reflexivity|]. split; [reflexivity|]. intros sl hms Hsl.
  pose proof (commits_loaded sl hms (VObj 7 ∅) Hsl) as H1.
  pose proof (commits_loaded sl hms (VObj 8 ∅) Hsl) as H2.
  eexists; eexists. split; [by apply run_commits|].
  split; [reflexivity|]. split; [reflexivity|].
  split; [simpl; by apply update_commits|reflexivity].
Qed.

(** ** The theorems at concrete inputs *)

Lemma absent_jobs_running_shows_NA_witness :
  dashboardStats (with_stats ∅) = VObj 1 ∅ /\
  get_opt (dashboardStats (with_stats ∅)) "total_jobs_running" = VUndefined /\
  exists v item,
    DashboardCard (fun s => s) (fun d => d) false (with_stats ∅) = Ok v /\
    items v !! 0 = Some item /\
    desc item = "Total jobs running" /\
    shown item = Content (VStr "N/A") /\ shown item <> Skeleton /\
    text (shown item) = Some "N/A" /\ text (shown item) <> Some "0".
Proof.
  split; [reflexivity|]. split; [reflexivity|].
  apply (absent_jobs_running_shows_NA
           (fun s => s) (fun d => d) false (with_stats ∅) 1 ∅); reflexivity.
Defined.

Lemma zero_jobs_running_shows_0_witness :
  exists v item,
    DashboardCard (fun s => s) (fun d => d) false
      (with_stats {[ "total_jobs_running" := VNum (Int 0) ]}) = Ok v /\
    items v !! 0 = Some item /\
    desc item = "Total jobs running" /\
    shown item = Content (VNum (Int 0)) /\
    text (shown item) = Some "0" /\ text (shown item) <> Some "N/A".
Proof.
  apply (zero_jobs_running_shows_0
           (fun s => s) (fun d => d) false
           (with_stats {[ "total_jobs_running" := VNum (Int 0) ]}) 1
           {[ "total_jobs_running" := VNum (Int 0) ]}); reflexivity.
Defined.

Lemma zero_duration_shows_NA_witness :
  exists v item,
    DashboardCard (fun s => s) (fun d => VStr "0h 0m 0s") true
      (with_stats {[ "total_dispatcher_duration" := VNum (Int 0) ]}) = Ok v /\
    items v !! 3 = Some item /\
    desc item = "Total dispatcher duration" /\
    shown item = Content (VStr "N/A") /\ text (shown item) = Some "N/A".
Proof.
  apply (zero_duration_shows_NA
           (fun s => s) (fun d => VStr "0h 0m 0s") true
           (with_stats {[ "total_dispatcher_duration" := VNum (Int 0) ]}) 1
           {[ "total_dispatcher_duration" := VNum (Int 0) ]}); reflexivity.
Defined.



(** Two runs.  In the first no render has an error and the notification is
    never visible.  In the second the error "timeout" is visible once the
    card is mounted, the click on the close icon hides it, and the renders
    that follow, with the same error and then with none, leave it hidden. *)
Lemma notification_invariant_witness :
  (exists h h',
     run (fun s => s) (fun d => d) (loaded VNull)
       [ Render (loaded VUndefined) ] = Ok h /\
     run_from (fun s => s) (fun d => d) h
       [ CloseIconClick; Render (loaded (VBool false)) ] = Ok h' /\
     (truthy VNull = false ->
      never_error [ Render (loaded VUndefined) ] = true ->
      openSnackbar h = false) /\
     (no_new_error VUndefined [ Render (loaded (VBool false)) ] = true ->
      openSnackbar h' = false)) /\
  (exists h0,
     run (fun s => s) (fun d => d) (loaded (VStr "timeout")) [] = Ok h0 /\
     openSnackbar h0 = true) /\
  (exists h h',
     run (fun s => s) (fun d => d) (loaded (VStr "timeout")) [] = Ok h /\
     run_from (fun s => s) (fun d => d) h
       [ CloseIconClick; Render (loaded (VStr "timeout"));
         Render (loaded VNull) ] = Ok h' /\
     (truthy (VStr "timeout") = false -> never_error [] = true ->
      openSnackbar h = false) /\
     (no_new_error (VStr "timeout")
        [ Render (loaded (VStr "timeout")); Render (loaded VNull) ] = true ->
      openSnackbar h' = false)).
Proof.
  split; [|split].
  - apply (notification_invariant (fun s => s) (fun d => d) (loaded VNull)
             [ Render (loaded VUndefined) ] CloseIconClick
             [ Render (loaded (VBool false)) ]); reflexivity.
  - eexists. split; [vm_compute; reflexivity | reflexivity].
  - apply (notification_invariant (fun s => s) (fun d => d)
             (loaded (VStr "timeout")) [] CloseIconClick
             [ Render (loaded (VStr "timeout")); Render (loaded VNull) ]);
      reflexivity.
Defined.

(** The flag goes from [null] to an error after a dismissal. *)
Lemma notifier_edge_triggered_witness :
  exists h h',
    run (fun s => s) (fun d => d) (loaded (VStr "timeout"))
      [ SnackbarOnClose; Render (loaded VNull) ] = Ok h /\
    step (fun s => s) (fun d => d) h (Render (loaded (VStr "refused")))
    = Ok h' /\
    (truthy VNull = false -> truthy (VStr "refused") = true ->
     openSnackbar h' = true) /\
    (openSnackbar h = false ->
     (openSnackbar h' = true <->
      Object_is VNull (VStr "refused") = false /\
      truthy (VStr "refused") = true)) /\
    (Object_is VNull (VStr "refused") = true ->
     openSnackbar h' = openSnackbar h) /\
    (truthy (VStr "refused") = false -> openSnackbar h' = openSnackbar h).
Proof.
  apply (notifier_edge_triggered (fun s => s) (fun d => d)
           (loaded (VStr "timeout"))
           [ SnackbarOnClose; Render (loaded VNull) ]
           (loaded (VStr "refused"))); reflexivity.
Defined.

(** ** The text of a number *)

Lemma number_to_string_Int_shape z :
  number_to_string (Int z) <> "" /\ number_to_string (Int z) <> "N/A".
Proof.
  unfold number_to_string, NilZero.string_of_int, NilZero.string_of_uint.
  destruct z as [|p|p]; simpl; [done| |done].
  destruct (Pos.to_uint p); simpl; done.
Qed.

Lemma number_to_string_nonempty n : number_to_string n <> "".
Proof. destruct n as [|z]; [done|]. apply number_to_string_Int_shape. Qed.

(** Two integers with the same decimal text are the same integer. *)
Lemma number_to_string_Int_inj z z' :
  number_to_string (Int z) = number_to_string (Int z') -> z = z'.
Proof.
  assert (Hnil : forall x, Z.to_int x <> Decimal.Pos Decimal.Nil
                           /\ Z.to_int x <> Decimal.Neg Decimal.Nil).
  { intros [|p|p]; simpl; split; try discriminate;
      intros [= H]; by apply Unsigned.to_uint_nonnil in H. }
  simpl. intros H. apply DecimalZ.to_int_inj.
  destruct (Hnil z) as [Hp Hn], (Hnil z') as [Hp' Hn'].
  pose proof (NilZero.isi _ Hp Hn) as E. rewrite H in E.
  rewrite (NilZero.isi _ Hp' Hn') in E. congruence.
Qed.

Lemma strict_eq_zero v : strict_eq v (VNum (Int 0)) = true <-> v = VNum (Int 0).
Proof.
  destruct v as [| |b|[|z]|s|r p]; simpl; split; try done.
  - by intros ->%Z.eqb_eq.
  - by intros [= ->].
Qed.

(** ** A card item *)

(** X6.  An item that is not a skeleton never shows empty text when its
    content is neither [true] nor an object: a falsy content other than the
    number 0 is replaced by "N/A", and any other content has a non-empty
    text. *)
Theorem item_text_never_empty desc content align isSkeletonPresent :
  truthy isSkeletonPresent = false -> writes_text content = true ->
  exists s,
    text (shown (DashBoardCardItems desc content align isSkeletonPresent))
    = Some s /\ s <> "".
Proof.
  intros Hsk Hw. unfold DashBoardCardItems. cbn [shown]. rewrite Hsk.
  destruct content as [| |[|]|[|z]|s|r p]; try discriminate Hw;
    try (by exists "N/A").
  - exists (number_to_string (Int z)).
    split; [|apply number_to_string_nonempty].
    simpl. by destruct (Z.eqb_spec z 0) as [->|].
  - simpl. destruct (String.eqb_spec s ""); simpl; [by exists "N/A"|].
    by exists s.
Qed.

(** ** The four metrics of the card *)

Section Metrics.

Context (statusLabel secondsToHms : value -> value).

Local Abbreviation DashboardCard := (DashboardCard statusLabel secondsToHms).

(** X1.  The skeleton is all or nothing: a render that returns has four
    items, and they are all skeletons when the statistics are falsy, and
    none is when the statistics are truthy. *)
Theorem skeletons_all_or_none open sel :
  renders sel = true ->
  exists v,
    DashboardCard open sel = Ok v /\ length (items v) = 4 /\
    if truthy (dashboardStats sel)
    then Forall (fun it => shown it <> Skeleton) (items v)
    else Forall (fun it => shown it = Skeleton) (items v).
Proof.
  intros Hsel. destruct (DashboardCard_items statusLabel secondsToHms open sel Hsel) as (v & Hv & Hit).
  exists v. split; [done|]. rewrite Hit. split; [done|].
  destruct (truthy (dashboardStats sel)) eqn:Hst.
  - repeat constructor; rewrite (shown_DashBoardCardItems _ _ _ _ Hst);
      by destruct (_ || _).
  - repeat constructor; unfold DashBoardCardItems, logical_not; simpl;
      by rewrite Hst.
Qed.

(** X2.  With an object for the statistics, the second metric, "Total jobs
    done", shows [total_jobs_completed] itself when that is truthy or the
    number 0, and "N/A" for every other value: [undefined], [null], [NaN],
    the empty string, [false]. *)
Theorem jobs_done_metric open sel ref props c :
  dashboardStats sel = VObj ref props ->
  get_opt (dashboardStats sel) "total_jobs_completed" = c ->
  exists v item,
    DashboardCard open sel = Ok v /\ items v !! 1 = Some item /\
    desc item = "Total jobs done" /\
    (truthy c = true \/ c = VNum (Int 0) -> shown item = Content c) /\
    (truthy c = false -> c <> VNum (Int 0) ->
     shown item = Content (VStr "N/A")).
Proof.
  intros Hobj Hc.
  assert (Hsel : renders sel = true) by (unfold renders; by rewrite Hobj).
  destruct (DashboardCard_items statusLabel secondsToHms open sel Hsel) as (v & Hv & Hit).
  rewrite Hc, Hobj in Hit.
  eexists v, _. split; [done|]. rewrite Hit. split; [reflexivity|].
  split; [reflexivity|].
  rewrite shown_DashBoardCardItems by done. split.
  - intros [-> | ->]; done.
  - intros -> Hz. destruct (strict_eq c _) eqn:E; [|done].
    by apply strict_eq_zero in E.
Qed.

(** X3.  With an object for the statistics, a job count that is a safe
    integer, zero and negative ones included, is shown by its metric (the
    first for [total_jobs_running], the second for [total_jobs_completed])
    as its decimal text, which is never "N/A"; and two safe integers with
    the same text are the same count. *)
Theorem integer_count_text open sel ref props k key z :
  dashboardStats sel = VObj ref props ->
  metrics !! k = Some key -> k < 2 ->
  props !! key = Some (VNum (Int z)) ->
  safe_integer z = true ->
  exists v item,
    DashboardCard open sel = Ok v /\ items v !! k = Some item /\
    text (shown item) = Some (NilZero.string_of_int (Z.to_int z)) /\
    text (shown item) <> Some "N/A" /\
    (forall z',
       safe_integer z' = true ->
       NilZero.string_of_int (Z.to_int z') = NilZero.string_of_int (Z.to_int z) ->
       z' = z).
Proof.
  intros Hobj Hkey Hk Hz _.
  assert (Hsel : renders sel = true) by (unfold renders; by rewrite Hobj).
  destruct (DashboardCard_items statusLabel secondsToHms open sel Hsel) as (v & Hv & Hit).
  rewrite Hobj in Hit. cbn [get_opt] in Hit.
  assert (Hshown : forall d a,
            shown (DashBoardCardItems d (VNum (Int z)) a
                     (logical_not (VObj ref props)))
            = Content (VNum (Int z))).
  { intros d a. rewrite shown_DashBoardCardItems by done.
    simpl. by destruct (Z.eqb_spec z 0) as [->|]. }
  destruct k as [|[|k]]; [| |lia]; injection Hkey as <-;
    rewrite Hz in Hit; cbn [default from_option id] in Hit;
    eexists v, _; (split; [done|]); rewrite Hit;
    (split; [reflexivity|]); rewrite Hshown; cbn [text];
    (split; [done|]);
    (split; [intros [= E]; by apply number_to_string_Int_shape in E|]);
    intros z' _ E; by apply number_to_string_Int_inj.
Qed.

(** X4.  With an object for the statistics, the third metric shows what
    [statusLabel] returns for [latest_running_task_status] when that is
    truthy, and "N/A" when it is falsy, the number 0 included. *)
Theorem status_metric open sel ref props label :
  dashboardStats sel = VObj ref props ->
  statusLabel (get_opt (dashboardStats sel) "latest_running_task_status")
  = label ->
  exists v item,
    DashboardCard open sel = Ok v /\ items v !! 2 = Some item /\
    desc item = "Latest running task status" /\
    shown item = Content (if truthy label then label else VStr "N/A").
Proof.
  intros Hobj Hlabel.
  assert (Hsel : renders sel = true) by (unfold renders; by rewrite Hobj).
  destruct (DashboardCard_items statusLabel secondsToHms open sel Hsel) as (v & Hv & Hit).
  rewrite Hlabel, Hobj in Hit.
  eexists v, _. split; [done|]. rewrite Hit. split; [reflexivity|].
  split; [reflexivity|].
  rewrite shown_DashBoardCardItems by done. unfold logical_or.
  destruct (truthy label) eqn:E; [by rewrite E|done].
Qed.

(** X5.  With an object for the statistics, the fourth metric applies
    [secondsToHms] exactly when [total_dispatcher_duration] is truthy, and
    then shows its result if that is truthy or the number 0; a falsy
    duration, and a falsy result other than 0, show "N/A". *)
Theorem duration_metric open sel ref props d :
  dashboardStats sel = VObj ref props ->
  get_opt (dashboardStats sel) "total_dispatcher_duration" = d ->
  exists v item,
    DashboardCard open sel = Ok v /\ items v !! 3 = Some item /\
    desc item = "Total dispatcher duration" /\
    (truthy d = false -> shown item = Content (VStr "N/A")) /\
    (truthy d = true ->
     (truthy (secondsToHms d) = true \/ secondsToHms d = VNum (Int 0) ->
      shown item = Content (secondsToHms d)) /\
     (truthy (secondsToHms d) = false -> secondsToHms d <> VNum (Int 0) ->
      shown item = Content (VStr "N/A"))).
Proof.
  intros Hobj Hd.
  assert (Hsel : renders sel = true) by (unfold renders; by rewrite Hobj).
  destruct (DashboardCard_items statusLabel secondsToHms open sel Hsel) as (v & Hv & Hit).
  rewrite Hd, Hobj in Hit.
  eexists v, _. split; [done|]. rewrite Hit. split; [reflexivity|].
  split; [reflexivity|].
  rewrite shown_DashBoardCardItems by done.
  destruct (truthy d); (split; [|done || intros _]); try done.
  split.
  - intros [-> | ->]; done.
  - intros -> Hc. destruct (strict_eq _ _) eqn:E; [|done].
    by apply strict_eq_zero in E.
Qed.

End Metrics.

(** ** More on the mounted card *)

Lemma Object_is_refl a : Object_is a a = true.
Proof.
  destruct a as [| |b|[|z]|s|r p]; simpl; try done.
  - by destruct b.
  - apply Z.eqb_refl.
  - apply String.eqb_refl.
  - apply Pos.eqb_refl.
Qed.

Lemma trigger_changes_le evs : forall d c,
  trigger_changes d c evs <= count_renders evs.
Proof.
  unfold count_renders.
  induction evs as [|[sel| |] evs IH]; intros d c; cbn [trigger_changes].
  - done.
  - rewrite filter_cons_True by done. cbn [length].
    specialize (IH (isDeleted sel) (callSocketApi sel)).
    destruct (_ && _); lia.
  - rewrite filter_cons_False by done. apply IH.
  - rewrite filter_cons_False by done. apply IH.
Qed.

Section Crash.

Context (statusLabel secondsToHms : value -> value).

Local Abbreviation step := (step statusLabel secondsToHms).
Local Abbreviation run_from := (run_from statusLabel secondsToHms).
Local Abbreviation run := (run statusLabel secondsToHms).
Local Abbreviation commits := (commits statusLabel secondsToHms).
Local Abbreviation commits_at := (commits_at statusLabel secondsToHms).

(** A trace with a render React does not commit throws there. *)
Lemma run_from_throws evs : forall h,
  forallb commits_at evs = false -> exists e, run_from h evs = Throw e.
Proof.
  induction evs as [|ev evs IH]; intros h H; [discriminate|].
  simpl in H. destruct (commits_at ev) eqn:Hev.
  - rewrite (run_from_cons _ _ _ _ _ _
               (step_commits statusLabel secondsToHms h ev Hev)).
    by apply IH.
  - destruct ev as [sel| |]; try discriminate. simpl.
    rewrite (update_throws statusLabel secondsToHms h sel Hev). by eexists.
Qed.

(** X7.  A run of the card returns exactly when React commits the mount and
    every later render: the statistics are neither [undefined] nor [null]
    and, when they are truthy, no content handed to an item is a plain
    object.  A mount with [undefined] or [null] statistics throws a
    [TypeError], and a mount with a plain object among its contents throws
    the error of React. *)
Theorem run_returns_iff_commits sel evs :
  (commits sel && forallb commits_at evs = true <->
   exists h, run sel evs = Ok h) /\
  (commits sel && forallb commits_at evs = false <->
   exists e, run sel evs = Throw e) /\
  (renders sel = false -> run sel evs = Throw TypeError) /\
  (renders sel = true -> commits sel = false ->
   run sel evs = Throw InvalidChild).
Proof.
  assert (Hok : commits sel && forallb commits_at evs = true ->
                exists h, run sel evs = Ok h).
  { intros [Hsel Hevs]%andb_true_iff. eexists. by apply run_commits. }
  assert (Hthrow : commits sel && forallb commits_at evs = false ->
                   exists e, run sel evs = Throw e).
  { intros H. unfold Card.run. destruct (commits sel) eqn:Hsel.
    - rewrite (mount_commits statusLabel secondsToHms sel Hsel).
      by apply run_from_throws.
    - rewrite (mount_throws statusLabel secondsToHms sel Hsel). by eexists. }
  split; [|split; [|split]].
  - split; [done|]. intros [h Hh].
    destruct (commits sel && forallb commits_at evs) eqn:E; [done|].
    destruct (Hthrow eq_refl) as [e He]. congruence.
  - split; [done|]. intros [e He].
    destruct (commits sel && forallb commits_at evs) eqn:E; [|done].
    destruct (Hok eq_refl) as [h Hh]. congruence.
  - intros Hr. unfold Card.run.
    assert (Hc : commits sel = false).
    { unfold Card.commits. fold (renders sel). by rewrite Hr. }
    by rewrite (mount_throws statusLabel secondsToHms sel Hc), Hr.
  - intros Hr Hc. unfold Card.run.
    by rewrite (mount_throws statusLabel secondsToHms sel Hc), Hr.
Qed.

(** X8.  No render hides the notification: over a trace without a
    dismissal whose renders React commits, a visible notification stays
    visible, whatever the error flag becomes. *)
Theorem renders_never_hide h evs :
  openSnackbar h = true -> no_dismissal evs = true ->
  forallb commits_at evs = true ->
  exists h', run_from h evs = Ok h' /\ openSnackbar h' = true.
Proof.
  revert h. induction evs as [|ev evs IH]; intros h Hopen Hno Hr.
  - by exists h.
  - simpl in Hno, Hr.
    apply andb_true_iff in Hno as [Hev Hno], Hr as [Hrev Hr].
    rewrite (run_from_cons _ _ _ _ _ _
               (step_commits statusLabel secondsToHms h ev Hrev)).
    apply IH; [|done|done].
    destruct ev as [sel| |]; try discriminate.
    by rewrite openSnackbar_updateEffects, Hopen.
Qed.

(** X9.  A render React commits, made again against the same selection,
    changes nothing: it dispatches no fetch and leaves every hook cell as
    it is, also when a dependency is [NaN]. *)
Theorem rerender_is_idle h sel :
  commits sel = true ->
  exists h1, step h (Render sel) = Ok h1 /\ step h1 (Render sel) = Ok h1.
Proof.
  intros Hsel. exists (updateEffects sel h). simpl.
  rewrite !(update_commits _ _ _ _ Hsel). split; [done|]. f_equal.
  unfold updateEffects at 1, sameFetchDeps, sameErrorDeps.
  rewrite errorDeps_updateEffects. simpl. by rewrite !Object_is_refl.
Qed.

(** X10.  Over a trace whose renders React commits, the card dispatches at
    least the fetch of the mount and at most one more fetch for each
    render. *)
Theorem fetches_bounded sel evs :
  commits sel = true -> forallb commits_at evs = true ->
  exists h,
    run sel evs = Ok h /\
    1 <= length (dispatched h) <= 1 + count_renders evs.
Proof.
  intros Hsel Hevs. unfold Card.run.
  rewrite (mount_commits _ _ sel Hsel). simpl.
  destruct (run_from_total statusLabel secondsToHms evs
              (mountEffects sel (firstRender sel)) Hevs) as [h Hrun].
  exists h. split; [done|].
  rewrite (run_from_fetch_count _ _ _ _ _ Hrun).
  pose proof (trigger_changes_le evs
                (fst (fetchDeps (mountEffects sel (firstRender sel))))
                (snd (fetchDeps (mountEffects sel (firstRender sel))))).
  assert (length (dispatched (mountEffects sel (firstRender sel))) = 1)
    by (unfold mountEffects, errorEffect; by destruct (truthy (isError sel))).
  lia.
Qed.

End Crash.

(** ** The grid of [Circuit] *)

Lemma body_SingleGrid isFetching title v :
  Grid.body (Grid.SingleGrid isFetching title v)
  = if truthy v then Content v
    else if truthy isFetching then Skeleton else Content (VStr "-").
Proof.
  unfold Grid.SingleGrid, Grid.logical_and, logical_not. simpl.
  destruct (truthy isFetching) eqn:Hf, (truthy v) eqn:Hv; simpl;
    by rewrite ?Hf.
Qed.

Lemma topGrid_lookup h details isFetching k key :
  Grid.fields !! k = Some key ->
  exists cell,
    Grid.topGrid (Grid.view h details isFetching) !! k = Some cell /\
    Grid.body cell
    = Grid.body (Grid.SingleGrid isFetching "" (get_opt details key)).
Proof.
  destruct k as [|[|[|[|k]]]]; simpl; intros [= <-]; by eexists.
Qed.

(** X11.  [Circuit] renders without its details: with [undefined] or [null]
    for [circuitDetails] nothing throws, each of the four cells is a
    skeleton while fetching and "-" otherwise, and the highlighter gets
    [undefined] for its source. *)
Theorem Circuit_not_loaded h details isFetching :
  nullish details = true ->
  let v := Grid.view h details isFetching in
  length (Grid.topGrid v) = 4 /\
  Forall (fun cell =>
            Grid.body cell
            = if truthy isFetching then Skeleton else Content (VStr "-"))
         (Grid.topGrid v) /\
  Grid.src (Grid.bottomGrid v) = VUndefined.
Proof.
  intros Hnull. split; [done|]. split.
  - destruct details; try discriminate Hnull;
      repeat constructor; by rewrite body_SingleGrid.
  - destruct details; try discriminate Hnull; done.
Qed.

(** X12.  The skeleton of the grid is per cell: a cell is a skeleton
    exactly when [isFetching] is truthy and its property of
    [circuitDetails] is falsy, and a truthy property is shown as it is,
    also while fetching. *)
Theorem grid_cell_skeleton h details isFetching k key v :
  Grid.fields !! k = Some key ->
  get_opt details key = v ->
  exists cell,
    Grid.topGrid (Grid.view h details isFetching) !! k = Some cell /\
    (Grid.body cell = Skeleton <->
     truthy isFetching = true /\ truthy v = false) /\
    (truthy v = true -> Grid.body cell = Content v).
Proof.
  intros Hk <-.
  destruct (topGrid_lookup h details isFetching k key Hk) as (cell & Hc & Hb).
  exists cell. split; [done|]. rewrite Hb, body_SingleGrid.
  destruct (truthy (get_opt details key)), (truthy isFetching);
    repeat split; try done; by intros [].
Qed.

(** X13.  A property of [circuitDetails] that is the number 0 is not shown
    as "0": its cell is "-", or a skeleton while fetching. *)
Theorem grid_zero_shows_dash h ref props isFetching k key :
  Grid.fields !! k = Some key ->
  props !! key = Some (VNum (Int 0)) ->
  exists cell,
    Grid.topGrid (Grid.view h (VObj ref props) isFetching) !! k = Some cell /\
    Grid.body cell
    = (if truthy isFetching then Skeleton else Content (VStr "-")) /\
    text (Grid.body cell) <> Some "0".
Proof.
  intros Hk Hz.
  destruct (topGrid_lookup h (VObj ref props) isFetching k key Hk)
    as (cell & Hc & Hb).
  exists cell. split; [done|]. rewrite Hb, body_SingleGrid.
  cbn [get_opt]. rewrite Hz. simpl.
  by destruct (truthy isFetching).
Qed.

(** ** These theorems at concrete inputs *)

(** Empty text for the statistics: four skeletons. *)
Lemma skeletons_all_or_none_witness :
  exists v,
    DashboardCard (fun s => s) (fun d => d) false
      {| callSocketApi := VBool false; dashboardStats := VStr "";
         isError := VNull; isDeleted := VBool false |} = Ok v /\
    length (items v) = 4 /\
    Forall (fun it => shown it = Skeleton) (items v).
Proof.
  apply (skeletons_all_or_none (fun s => s) (fun d => d) false
           {| callSocketApi := VBool false; dashboardStats := VStr "";
              isError := VNull; isDeleted := VBool false |}); reflexivity.
Defined.

Lemma jobs_done_metric_witness :
  exists v item,
    DashboardCard (fun s => s) (fun d => d) false
      (with_stats {[ "total_jobs_completed" := VNum (Int 12) ]}) = Ok v /\
    items v !! 1 = Some item /\
    desc item = "Total jobs done" /\
    (truthy (VNum (Int 12)) = true \/ VNum (Int 12) = VNum (Int 0) ->
     shown item = Content (VNum (Int 12))) /\
    (truthy (VNum (Int 12)) = false -> VNum (Int 12) <> VNum (Int 0) ->
     shown item = Content (VStr "N/A")).
Proof.
  apply (jobs_done_metric (fun s => s) (fun d => d) false
           (with_stats {[ "total_jobs_completed" := VNum (Int 12) ]}) 1
           {[ "total_jobs_completed" := VNum (Int 12) ]} (VNum (Int 12)));
    reflexivity.
Defined.

Lemma integer_count_text_witness :
  exists v item,
    DashboardCard (fun s => s) (fun d => d) false
      (with_stats {[ "total_jobs_completed" := VNum (Int 12) ]}) = Ok v /\
    items v !! 1 = Some item /\
    text (shown item) = Some "12" /\
    text (shown item) <> Some "N/A" /\
    (forall z',
       safe_integer z' = true ->
       NilZero.string_of_int (Z.to_int z') = "12" -> z' = 12%Z).
Proof.
  apply (integer_count_text (fun s => s) (fun d => d) false
           (with_stats {[ "total_jobs_completed" := VNum (Int 12) ]}) 1
           {[ "total_jobs_completed" := VNum (Int 12) ]}
           1 "total_jobs_completed" 12);
    [reflexivity | reflexivity | lia | reflexivity | reflexivity].
Defined.

(** A label function that knows no status: the metric falls back. *)
Lemma status_metric_witness :
  exists v item,
    DashboardCard (fun s => VStr "") (fun d => d) false
      (with_stats {[ "latest_running_task_status" := VStr "RUNNING" ]})
    = Ok v /\
    items v !! 2 = Some item /\
    desc item = "Latest running task status" /\
    shown item = Content (VStr "N/A").
Proof.
  apply (status_metric (fun s => VStr "") (fun d => d) false
           (with_stats {[ "latest_running_task_status" := VStr "RUNNING" ]}) 1
           {[ "latest_running_task_status" := VStr "RUNNING" ]} (VStr ""));
    reflexivity.
Defined.

Lemma duration_metric_witness :
  exists v item,
    DashboardCard (fun s => s) (fun d => VStr "1m 30s") false
      (with_stats {[ "total_dispatcher_duration" := VNum (Int 90) ]}) = Ok v /\
    items v !! 3 = Some item /\
    desc item = "Total dispatcher duration" /\
    (truthy (VNum (Int 90)) = false -> shown item = Content (VStr "N/A")) /\
    (truthy (VNum (Int 90)) = true ->
     (truthy (VStr "1m 30s") = true \/ VStr "1m 30s" = VNum (Int 0) ->
      shown item = Content (VStr "1m 30s")) /\
     (truthy (VStr "1m 30s") = false -> VStr "1m 30s" <> VNum (Int 0) ->
      shown item = Content (VStr "N/A"))).
Proof.
  apply (duration_metric (fun s => s) (fun d => VStr "1m 30s") false
           (with_stats {[ "total_dispatcher_duration" := VNum (Int 90) ]}) 1
           {[ "total_dispatcher_duration" := VNum (Int 90) ]} (VNum (Int 90)));
    reflexivity.
Defined.

Lemma item_text_never_empty_witness :
  exists s,
    text (shown (DashBoardCardItems "Total jobs done" (VStr "") "center"
                   (VBool false))) = Some s /\ s <> "".
Proof.
  apply (item_text_never_empty "Total jobs done" (VStr "") "center"
           (VBool false)); reflexivity.
Defined.

(** The error clears and comes back while the notification is visible. *)
Lemma renders_never_hide_witness :
  exists h',
    run_from (fun s => s) (fun d => d) (firstRender (loaded (VStr "timeout")))
      [ Render (loaded VNull); Render (loaded (VStr "refused")) ] = Ok h' /\
    openSnackbar h' = true.
Proof.
  apply (renders_never_hide (fun s => s) (fun d => d)
           (firstRender (loaded (VStr "timeout")))
           [ Render (loaded VNull); Render (loaded (VStr "refused")) ]);
    reflexivity.
Defined.

Lemma rerender_is_idle_witness :
  exists h1,
    step (fun s => s) (fun d => d) (firstRender (loaded VNull))
      (Render (triggered (VNum NaN) (VBool true))) = Ok h1 /\
    step (fun s => s) (fun d => d) h1
      (Render (triggered (VNum NaN) (VBool true))) = Ok h1.
Proof.
  apply (rerender_is_idle (fun s => s) (fun d => d)
           (firstRender (loaded VNull))
           (triggered (VNum NaN) (VBool true))); reflexivity.
Defined.

Lemma fetches_bounded_witness :
  exists h,
    run (fun s => s) (fun d => d) (triggered (VBool false) (VBool false))
      [ Render (triggered (VBool false) (VBool true));
        Render (triggered (VBool false) (VBool true));
        CloseIconClick ] = Ok h /\
    1 <= length (dispatched h) <= 3.
Proof.
  apply (fetches_bounded (fun s => s) (fun d => d)
           (triggered (VBool false) (VBool false))
           [ Render (triggered (VBool false) (VBool true));
             Render (triggered (VBool false) (VBool true));
             CloseIconClick ]); reflexivity.
Defined.

Lemma Circuit_not_loaded_witness :
  length (Grid.topGrid (Grid.view Circuit.mount VUndefined (VBool true))) = 4 /\
  Forall (fun cell => Grid.body cell = Skeleton)
    (Grid.topGrid (Grid.view Circuit.mount VUndefined (VBool true))) /\
  Grid.src (Grid.bottomGrid (Grid.view Circuit.mount VUndefined (VBool true)))
  = VUndefined.
Proof.
  apply (Circuit_not_loaded Circuit.mount VUndefined (VBool true));
    reflexivity.
Defined.

Lemma grid_cell_skeleton_witness :
  exists cell,
    Grid.topGrid
      (Grid.view Circuit.mount (VObj 1 {[ "depth" := VNum (Int 7) ]})
         (VBool true)) !! 3 = Some cell /\
    (Grid.body cell = Skeleton <->
     truthy (VBool true) = true /\ truthy (VNum (Int 7)) = false) /\
    (truthy (VNum (Int 7)) = true -> Grid.body cell = Content (VNum (Int 7))).
Proof.
  apply (grid_cell_skeleton Circuit.mount
           (VObj 1 {[ "depth" := VNum (Int 7) ]}) (VBool true) 3 "depth"
           (VNum (Int 7))); reflexivity.
Defined.

Lemma grid_zero_shows_dash_witness :
  exists cell,
    Grid.topGrid
      (Grid.view Circuit.mount (VObj 1 {[ "total_qbits" := VNum (Int 0) ]})
         (VBool false)) !! 0 = Some cell /\
    Grid.body cell = Content (VStr "-") /\
    text (Grid.body cell) <> Some "0".
Proof.
  apply (grid_zero_shows_dash Circuit.mount 1
           {[ "total_qbits" := VNum (Int 0) ]} (VBool false) 0 "total_qbits");
    reflexivity.
Defined.
